(** * pyddq: the Python binding of the drunken-data-quality engine

    The development embeds [python/pyddq/core.py] (class [Check]) and the
    program of [python/tests/integration/test_constraints.py].  The binding
    forwards every call to objects living in a JVM; those objects (the
    engine's [Check], its constraints, its reporters) and the helper modules
    [jvm_conversions] and [reporters] are modelled from the specification and
    kept apart in their own modules. *)

From stdpp Require Import base gmap strings list pretty.

Open Scope string_scope.

(** ** Cell values of a data frame *)

Inductive value :=
| VInt (n : Z)
| VStr (s : string).

#[global] Instance value_eq_dec : EqDecision value.
Proof. solve_decision. Defined.

#[global] Instance value_countable : Countable value.
Proof.
  refine (inj_countable'
            (fun v => match v with VInt n => inl n | VStr s => inr s end)
            (fun x => match x with inl n => VInt n | inr s => VStr s end) _).
  by intros [].
Defined.

(** A cell is a value or SQL null (Python [None]). *)
Definition cell := option value.

Definition newline : string := String (Ascii.ascii_of_nat 10) EmptyString.

(** ** The engine behind the binding *)

Module Engine.

(** Modelled from the spec: the DataSource of section 3, the tabular data
    a JVM DataFrame handle ([_jdf]) points to: an ordered schema of
    (columnName, columnType) and the rows. *)
Record DataSource := {
  schema : list (string * string);
  rows : list (list cell)
}.

(** Modelled from the spec: the tagged variant Constraint of section 3,
    one kind per constraint-adding method of the engine. *)
Inductive Constraint :=
| UniqueKey (columns : list string)
| NeverNull (column : string)
| AlwaysNull (column : string)
| ConvertibleTo (column : string) (targetType : string)
| FormattedAsDate (column : string) (pattern : string)
| AnyOf (column : string) (allowed : gset value)
| MatchingRegex (column : string) (pattern : string)
| FunctionalDependency (determinants dependents : list string)
| ForeignKey (refDataSource : DataSource) (columnPairs : list (string * string))
| Joinable (refDataSource : DataSource) (columnPairs : list (string * string))
| Satisfies (predicateExpression : string).

(** Modelled from the spec: the engine-side Check value of section 3
    (de.frosner.ddq.core.Check), the five fields its constructor is given
    in [core.py]. *)
Record Check := {
  dataSource : DataSource;
  displayName : option string;
  cacheMethod : option string;
  constraints : list Constraint;
  id : string
}.

(** Modelled from the spec: ConstraintResult status of section 3. *)
Inductive Status :=
| Success
| Failure (detail : nat)
| Error (cause : string).

(** Modelled from the spec: ConstraintResult of section 3. *)
Record ConstraintResult := {
  constraint : Constraint;
  status : Status;
  message : string
}.

(** Modelled from the spec: checkMetadata of section 3. *)
Record CheckMetadata := {
  checkName : string;
  columnCount : nat;
  rowCount : nat
}.

(** Modelled from the spec: VerificationResult of section 3, the results in
    the order the constraints were added. *)
Record VerificationResult := {
  checkMetadata : CheckMetadata;
  constraintResults : list ConstraintResult
}.

(** Modelled from the spec: the Reporter collaborator of section 6, named
    by the sink it writes to; the default one is console-style. *)
Inductive Reporter :=
| ConsoleReporter
| StreamReporter (sink : string).

(** Modelled from the spec: what the engine asks of a data source during a
    run (sections 4.3 and 5): the caching step, the row count, the query of
    a constraint. *)
Inductive Access :=
| ACache (directive : string)
| ARowCount
| AQuery (k : Constraint).

(** Modelled from the spec: the JVM side of the process.  [collaborator]
    is the black-box query capability of section 1 (casts, date parsing,
    regular expressions, predicates, joins); [accesses] logs the queries
    issued against data sources and [reports] the invocations of
    [report], both oldest first. *)
Record JVM := {
  collaborator : DataSource -> Constraint -> Status * string;
  accesses : list Access;
  reports : list (Reporter * VerificationResult)
}.

(** Modelled from the spec: ConstructionError of section 7. *)
Inductive EngineError :=
| ConstructionError (k : Constraint).

(** Modelled from the spec: "Each addX(...) method validates its arguments
    are non-empty (e.g., UniqueKey requires at least one column)" (section
    4.2): a constraint has an empty argument when a collection it is given
    (a column list, a list of column pairs, the allowed set) has no element.
    A column name that does not resolve or an expression that does not parse
    is an evaluation error of section 7, reported by the run. *)
Definition has_empty_argument (k : Constraint) : bool :=
  match k with
  | UniqueKey columns => bool_decide (columns = [])
  | AnyOf _ allowed => bool_decide (allowed = ∅)
  | FunctionalDependency determinants dependents =>
      bool_decide (determinants = []) || bool_decide (dependents = [])
  | ForeignKey _ columnPairs | Joinable _ columnPairs =>
      bool_decide (columnPairs = [])
  | NeverNull _ | AlwaysNull _ | ConvertibleTo _ _ | FormattedAsDate _ _
  | MatchingRegex _ _ | Satisfies _ => false
  end.

(** Modelled from the spec: adding a constraint "produces a new Check with
    the same dataSource/displayName/cacheMethod and the constraint sequence
    extended by one" (section 3), after the validation of section 4.2. *)
Definition addConstraint (c : Check) (k : Constraint) : EngineError + Check :=
  if has_empty_argument k then inl (ConstructionError k)
  else inr {| dataSource := dataSource c;
              displayName := displayName c;
              cacheMethod := cacheMethod c;
              constraints := constraints c ++ [k];
              id := id c |}.

(** Modelled from the spec: the addX methods of section 4.2, under the
    names and with the argument shapes [core.py] calls them with. *)
Definition hasUniqueKey (c : Check) (columnName : string)
    (columnNames : list string) :=
  addConstraint c (UniqueKey (columnName :: columnNames)).
Definition isNeverNull (c : Check) (columnName : string) :=
  addConstraint c (NeverNull columnName).
Definition isAlwaysNull (c : Check) (columnName : string) :=
  addConstraint c (AlwaysNull columnName).
Definition isConvertibleTo (c : Check) (columnName targetType : string) :=
  addConstraint c (ConvertibleTo columnName targetType).
Definition isFormattedAsDate (c : Check) (columnName dateFormat : string) :=
  addConstraint c (FormattedAsDate columnName dateFormat).
Definition isAnyOf (c : Check) (columnName : string) (allowed : gset value) :=
  addConstraint c (AnyOf columnName allowed).
Definition isMatchingRegex (c : Check) (columnName regexp : string) :=
  addConstraint c (MatchingRegex columnName regexp).
Definition hasFunctionalDependency (c : Check)
    (determinantSet dependentSet : list string) :=
  addConstraint c (FunctionalDependency determinantSet dependentSet).
Definition hasForeignKey (c : Check) (referenceTable : DataSource)
    (keyMap : string * string) (keyMaps : list (string * string)) :=
  addConstraint c (ForeignKey referenceTable (keyMap :: keyMaps)).
Definition isJoinableWith (c : Check) (referenceTable : DataSource)
    (keyMap : string * string) (keyMaps : list (string * string)) :=
  addConstraint c (Joinable referenceTable (keyMap :: keyMaps)).
Definition satisfies (c : Check) (constraint : string) :=
  addConstraint c (Satisfies constraint).

(** *** Evaluation *)

(** Modelled from the spec: the position of a column in [schema()]. *)
Fixpoint columnIndex (sch : list (string * string)) (column : string)
    : option nat :=
  match sch with
  | [] => None
  | (name, _) :: rest =>
      if bool_decide (name = column) then Some 0
      else S <$> columnIndex rest column
  end.

(** Modelled from the spec: the tuple of [cols] of each row (section 4.1),
    when every column resolves. *)
Definition keyTuples (ds : DataSource) (columns : list string)
    : option (list (list cell)) :=
  idxs ← mapM (columnIndex (schema ds)) columns;
  Some (map (fun row => map (fun i => default None (row !! i)) idxs) (rows ds)).

(** Modelled from the spec: "count of row groups where the tuple of cols
    repeats" (section 4.1, UniqueKey). *)
Definition nonUniqueTuples (tuples : list (list cell)) : nat :=
  length (filter (fun t => 1 < length (filter (fun u => u = t) tuples))
                 (remove_dups tuples)).

(** Modelled from the spec: the message of a UniqueKey result, worded as
    the expected output of testHasUniqueKey has it. *)
Definition uniqueKeyMessage (columns : list string) (nonUnique : nat) : string :=
  let noun := if bool_decide (length columns = 1) then "Column" else "Columns" in
  let verb := if bool_decide (length columns = 1) then "is" else "are" in
  let subject := noun +:+ " " +:+ String.concat ", " columns +:+ " " +:+ verb in
  if bool_decide (nonUnique = 0) then subject +:+ " a key."
  else subject +:+ " not a key (" +:+ pretty nonUnique +:+ " non-unique "
       +:+ (if bool_decide (nonUnique = 1) then "tuple" else "tuples") +:+ ").".

(** Modelled from the spec: compile, execute and interpret one constraint
    (section 4.1).  UniqueKey is counted on the rows; the other kinds, and
    a UniqueKey whose columns do not resolve, are answered by the
    collaborator. *)
Definition evaluate (jvm : JVM) (ds : DataSource) (k : Constraint)
    : ConstraintResult :=
  match k with
  | UniqueKey columns =>
      match keyTuples ds columns with
      | Some tuples =>
          let n := nonUniqueTuples tuples in
          {| constraint := k;
             status := if bool_decide (n = 0) then Success else Failure n;
             message := uniqueKeyMessage columns n |}
      | None =>
          {| constraint := k;
             status := fst (collaborator jvm ds k);
             message := snd (collaborator jvm ds k) |}
      end
  | _ =>
      {| constraint := k;
         status := fst (collaborator jvm ds k);
         message := snd (collaborator jvm ds k) |}
  end.

(** Modelled from the spec: toDisplayString of section 6,
    "[col1: type1, col2: type2]". *)
Definition toDisplayString (ds : DataSource) : string :=
  "[" +:+ String.concat ", "
            (map (fun ct => fst ct +:+ ": " +:+ snd ct) (schema ds)) +:+ "]".

(** Modelled from the spec: steps 1 to 3 of run (section 4.3). *)
Definition verify (jvm : JVM) (c : Check) : VerificationResult :=
  {| checkMetadata :=
       {| checkName := default (toDisplayString (dataSource c)) (displayName c);
          columnCount := length (schema (dataSource c));
          rowCount := length (rows (dataSource c)) |};
     constraintResults := map (evaluate jvm (dataSource c)) (constraints c) |}.

(** Modelled from the spec: the accesses of one run, namely the caching
    step once and first if a directive is set (section 5), the row count,
    one query per constraint in registration order. *)
Definition runAccesses (c : Check) : list Access :=
  match cacheMethod c with Some d => [ACache d] | None => [] end
  ++ ARowCount :: map AQuery (constraints c).

(** Modelled from the spec: run of section 4.3; step 4 hands the result to
    each reporter of the supplied sequence, in order. *)
Definition run (c : Check) (reporters : list Reporter) (jvm : JVM)
    : VerificationResult * JVM :=
  let result := verify jvm c in
  (result,
   {| collaborator := collaborator jvm;
      accesses := accesses jvm ++ runAccesses c;
      reports := reports jvm ++ map (fun r => (r, result)) reporters |}).

(** Modelled from the spec: the report text contract of section 6, laid
    out as the expected outputs of the integration tests are (blank lines
    around the summary, no trailing newline).  First the status word. *)
Definition statusLabel (s : Status) : string :=
  match s with
  | Success => "SUCCESS"
  | Failure _ => "FAILURE"
  | Error _ => "ERROR"
  end.

(** Modelled from the spec: a bullet line, [- *STATUS*: <message>]. *)
Definition bulletLine (r : ConstraintResult) : string :=
  "- *" +:+ statusLabel (status r) +:+ "*: " +:+ message r.

(** Modelled from the spec: header line, summary line, bullet lines. *)
Definition render (v : VerificationResult) : string :=
  String.concat newline
    ([ "**Checking " +:+ checkName (checkMetadata v) +:+ "**";
       "";
       "It has a total number of " +:+ pretty (columnCount (checkMetadata v))
         +:+ " columns and " +:+ pretty (rowCount (checkMetadata v)) +:+ " rows.";
       "" ]
     ++ map bulletLine (constraintResults v)).

End Engine.

(** ** The Python side of the process *)

(** The py4j view of the JVM that a SparkContext holds ([_sc._jvm]); the
    process has one JVM, whose state is [jvm] in [World] below. *)
Inductive JVMView := jvm_view.

(** A pyspark DataFrame as the binding uses it: the JVM handle [_jdf], the
    gateway [_sc._jvm] and what [str] renders it as.  pyspark is not part of
    the repository, so the rendering is a field of the object. *)
Record DataFrame := {
  _jdf : Engine.DataSource;
  _sc_jvm : JVMView;
  __str__ : string
}.

(** Python values that reach [Check]. *)
Inductive pyval :=
| PyNone
| PyStr (s : string)
| PyDataFrame (df : DataFrame)
| PyJVMView (v : JVMView)
| PyJavaObject (c : Engine.Check)
| PyBoundMethod (self : positive) (method : string).

(** Truth value of an object: [None] and the empty string are false. *)
Definition truthy (v : pyval) : bool :=
  match v with
  | PyNone => false
  | PyStr s => negb (bool_decide (s = ""))
  | _ => true
  end.

(** [str(v)].  Only the DataFrame case is reached from a Check built by the
    constructor; handles render as py4j names them. *)
Definition str (v : pyval) : string :=
  match v with
  | PyNone => "None"
  | PyStr s => s
  | PyDataFrame df => __str__ df
  | PyJVMView _ => "JVMView"
  | PyJavaObject _ => "JavaObject"
  | PyBoundMethod _ method => "<bound method Check." +:+ method +:+ ">"
  end.

(** The exceptions that reach a caller of [Check]: a missing attribute, and
    an exception thrown on the JVM, which py4j re-raises. *)
Inductive exn :=
| AttributeError (attr : string)
| Py4JJavaError (e : Engine.EngineError).

(** How a call ends. *)
Inductive outcome (A : Type) :=
| Return (a : A)
| Raise (e : exn).
Arguments Return {A} a.
Arguments Raise {A} e.

(** The state of the process: the instance dictionaries ([__dict__]) of the
    Check objects allocated so far, the rendering of the function object
    [uuid4] (fixed once the module is loaded), and the JVM. *)
Record World := {
  heap : gmap positive (gmap string pyval);
  uuid4_str : string;
  jvm : Engine.JVM
}.

Definition with_heap (h : gmap positive (gmap string pyval)) (w : World) : World :=
  {| heap := h; uuid4_str := uuid4_str w; jvm := jvm w |}.

Definition with_jvm (j : Engine.JVM) (w : World) : World :=
  {| heap := heap w; uuid4_str := uuid4_str w; jvm := j |}.

(** Python computations: state passing with exceptions. *)
Definition Py (A : Type) : Type := World -> outcome A * World.

Definition ret {A} (a : A) : Py A := fun w => (Return a, w).

Definition raise {A} (e : exn) : Py A := fun w => (Raise e, w).

Definition bind {A B} (m : Py A) (k : A -> Py B) : Py B :=
  fun w =>
    match m w with
    | (Return a, w') => k a w'
    | (Raise e, w') => (Raise e, w')
    end.

Notation "'let*' x := m 'in' k" := (bind m (fun x => k))
  (at level 10, x name, m at level 100, k at level 200).

(** The list comprehension [[f(x) for x in l]]. *)
Fixpoint comprehension {A B} (f : A -> Py B) (l : list A) : Py (list B) :=
  match l with
  | [] => ret []
  | x :: rest =>
      let* y := f x in
      let* ys := comprehension f rest in
      ret (y :: ys)
  end.

(** [object.__new__]: a fresh instance with an empty dictionary. *)
Definition alloc : Py positive :=
  fun w =>
    let l := fresh (dom (heap w)) in
    (Return l, with_heap (<[l := ∅]> (heap w)) w).

(** [self.name = v] for a name that is not a property. *)
Definition setattr (self : positive) (name : string) (v : pyval) : Py unit :=
  fun w => (Return tt, with_heap (alter (insert name v) self (heap w)) w).

(** Lookup in the instance dictionary. *)
Definition instance_attr (w : World) (self : positive) (name : string)
    : option pyval :=
  heap w !! self ≫= (fun d => d !! name).

(** [str(uuid4)]: the function object is rendered, it is not called. *)
Definition str_uuid4 : Py string := fun w => (Return (uuid4_str w), w).

(** A call into the JVM that may throw. *)
Definition jvm_call {A} (r : Engine.EngineError + A) : Py A :=
  match r with
  | inr a => ret a
  | inl e => raise (Py4JJavaError e)
  end.

(** [dataFrame._sc._jvm] and [dataFrame._jdf]. *)
Definition attr_sc_jvm (dataFrame : pyval) : Py JVMView :=
  match dataFrame with
  | PyDataFrame df => ret (_sc_jvm df)
  | _ => raise (AttributeError "_sc")
  end.

Definition attr_jdf (dataFrame : pyval) : Py Engine.DataSource :=
  match dataFrame with
  | PyDataFrame df => ret (_jdf df)
  | _ => raise (AttributeError "_jdf")
  end.

(** ** The helper modules of the binding *)

Module jc.

(** Modelled from the spec: [jvm_conversions] (python/pyddq, not among the
    embedded sources), the "cross-runtime marshalling" of section 9: native
    collections and tuples become the JVM's, element for element. *)
Definition iterableToScalaList {A} (jvm : JVMView) (iterable : list A) : list A :=
  iterable.

Definition iterableToScalaSet (jvm : JVMView) (iterable : list value) : gset value :=
  list_to_set iterable.

Definition tuple2 (jvm : JVMView) (t : string * string) : string * string := t.

Definition simpleDateFormat (jvm : JVMView) (dateFormat : string) : string :=
  dateFormat.

End jc.

Module reporters.

(** Modelled from the spec: the [reporters] module (python/pyddq, not among
    the embedded sources).  A Python reporter is an object with a
    [getJvmReporter] method giving its JVM counterpart. *)
Record Reporter := {
  getJvmReporter : JVMView -> Engine.Reporter
}.

(** Modelled from the spec: [ConsoleReporter()], the "console-style
    reporter" of section 4.3. *)
Definition ConsoleReporter : Reporter :=
  {| getJvmReporter := fun _ => Engine.ConsoleReporter |}.

(** Modelled from the spec: a Reporter of section 6 standing for
    [utils.DummyReporter] of the integration tests (not among the embedded
    sources), which keeps what is reported to it for [getOutput]. *)
Definition DummyReporter : Reporter :=
  {| getJvmReporter := fun _ => Engine.StreamReporter "DummyReporter" |}.

End reporters.

(** ** class Check (python/pyddq/core.py) *)

Module Check.

(** The properties: [dataFrame], [name], [cacheMethod], [id]. *)
Definition property_names : list string :=
  ["dataFrame"; "name"; "cacheMethod"; "id"].

(** The functions of the class body. *)
Definition method_names : list string :=
  ["__init__"; "hasUniqueKey"; "isNeverNull"; "isAlwaysNull"; "isConvertibleTo";
   "isFormattedAsDate"; "isAnyOf"; "isMatchingRegex"; "hasFunctionalDependency";
   "hasForeignKey"; "isJoinableWith"; "satisfies"; "run"].

(** [self.<name>] for a name that is not a property: the instance
    dictionary first, then the functions of the class; otherwise
    AttributeError. *)
Definition plain_attr (self : positive) (name : string) : Py pyval :=
  fun w =>
    match instance_attr w self name with
    | Some v => (Return v, w)
    | None =>
        if bool_decide (name ∈ method_names)
        then (Return (PyBoundMethod self name), w)
        else (Raise (AttributeError name), w)
    end.

Definition dataFrame (self : positive) : Py pyval :=
  plain_attr self "_dataFrame".

(** [self._displayName or str(self.dataFrame)]. *)
Definition name (self : positive) : Py pyval :=
  let* displayName := plain_attr self "_displayName" in
  if truthy displayName then ret displayName
  else
    let* df := dataFrame self in
    ret (PyStr (str df)).

Definition cacheMethod (self : positive) : Py pyval :=
  plain_attr self "_cacheMethod".

(** [self._jvm] where a JVM view is needed ([self._jvm.scala...], or an
    argument of a [jc] conversion); anything else has no [scala]. *)
Definition self_jvm (self : positive) : Py JVMView :=
  let* v := plain_attr self "_jvm" in
  match v with
  | PyJVMView jvm => ret jvm
  | _ => raise (AttributeError "scala")
  end.

(** [self.jvmCheck.<method>]: the handle on which [method] is looked up. *)
Definition self_jvmCheck (self : positive) (method : string) : Py Engine.Check :=
  let* v := plain_attr self "jvmCheck" in
  match v with
  | PyJavaObject j => ret j
  | _ => raise (AttributeError method)
  end.

(** [self._id or str(self.jvmCheck.id())]. *)
Definition id (self : positive) : Py pyval :=
  let* _id := plain_attr self "_id" in
  if truthy _id then ret _id
  else
    let* j := self_jvmCheck self "id" in
    ret (PyStr (Engine.id j)).

(** [self.<name>]: properties are data descriptors and win over the
    instance dictionary. *)
Definition getattr (self : positive) (attr : string) : Py pyval :=
  if bool_decide (attr = "dataFrame") then dataFrame self
  else if bool_decide (attr = "name") then name self
  else if bool_decide (attr = "cacheMethod") then cacheMethod self
  else if bool_decide (attr = "id") then id self
  else plain_attr self attr.

Definition __init__ (self : positive) (dataFrame displayName jvmCheck : pyval)
    : Py unit :=
  let* _ := setattr self "_dataFrame" dataFrame in
  let* jvm := attr_sc_jvm dataFrame in
  let* _ := setattr self "_jvm" (PyJVMView jvm) in
  let* _ := setattr self "_displayName" displayName in
  let* _ := self_jvm self in
  let displayName := None in
  let* _ := self_jvm self in
  let cacheMethod := None in
  let* _ := self_jvm self in
  let constraints := [] in
  let* id := str_uuid4 in
  if truthy jvmCheck then setattr self "jvmCheck" jvmCheck
  else
    let* _ := self_jvm self in
    let* jdf := attr_jdf dataFrame in
    setattr self "jvmCheck"
      (PyJavaObject
         {| Engine.dataSource := jdf;
            Engine.displayName := displayName;
            Engine.cacheMethod := cacheMethod;
            Engine.constraints := constraints;
            Engine.id := id |}).

(** The call [Check(dataFrame, displayName, jvmCheck)]. *)
Definition new (dataFrame displayName jvmCheck : pyval) : Py positive :=
  let* self := alloc in
  let* _ := __init__ self dataFrame displayName jvmCheck in
  ret self.

(** The tail shared by the constraint-adding methods:
    [return Check(self.dataFrame, self.displayName, jvmCheck)]. *)
Definition return_Check (self : positive) (jvmCheck : Engine.Check) : Py positive :=
  let* dataFrame := getattr self "dataFrame" in
  let* displayName := getattr self "displayName" in
  new dataFrame displayName (PyJavaObject jvmCheck).

Definition hasUniqueKey (self : positive) (columnName : string)
    (columnNames : list string) : Py positive :=
  let* j := self_jvmCheck self "hasUniqueKey" in
  let* jvm := self_jvm self in
  let* jvmCheck :=
    jvm_call (Engine.hasUniqueKey j columnName
                (jc.iterableToScalaList jvm columnNames)) in
  return_Check self jvmCheck.

Definition isNeverNull (self : positive) (columnName : string) : Py positive :=
  let* j := self_jvmCheck self "isNeverNull" in
  let* jvmCheck := jvm_call (Engine.isNeverNull j columnName) in
  return_Check self jvmCheck.

Definition isAlwaysNull (self : positive) (columnName : string) : Py positive :=
  let* j := self_jvmCheck self "isAlwaysNull" in
  let* jvmCheck := jvm_call (Engine.isAlwaysNull j columnName) in
  return_Check self jvmCheck.

(** [targetType] is a pyspark type, passed as its [json()] rendering, which
    [DataType.fromJson] reads back on the JVM. *)
Definition isConvertibleTo (self : positive) (columnName : string)
    (targetType : string) : Py positive :=
  let* _ := self_jvm self in
  let jvmType := targetType in
  let* j := self_jvmCheck self "isConvertibleTo" in
  let* jvmCheck := jvm_call (Engine.isConvertibleTo j columnName jvmType) in
  return_Check self jvmCheck.

Definition isFormattedAsDate (self : positive) (columnName dateFormat : string)
    : Py positive :=
  let* jvm := self_jvm self in
  let jvmFormat := jc.simpleDateFormat jvm dateFormat in
  let* j := self_jvmCheck self "isFormattedAsDate" in
  let* jvmCheck := jvm_call (Engine.isFormattedAsDate j columnName jvmFormat) in
  return_Check self jvmCheck.

Definition isAnyOf (self : positive) (columnName : string) (allowed : list value)
    : Py positive :=
  let* j := self_jvmCheck self "isAnyOf" in
  let* jvm := self_jvm self in
  let* jvmCheck :=
    jvm_call (Engine.isAnyOf j columnName (jc.iterableToScalaSet jvm allowed)) in
  return_Check self jvmCheck.

Definition isMatchingRegex (self : positive) (columnName regexp : string)
    : Py positive :=
  let* j := self_jvmCheck self "isMatchingRegex" in
  let* jvmCheck := jvm_call (Engine.isMatchingRegex j columnName regexp) in
  return_Check self jvmCheck.

Definition hasFunctionalDependency (self : positive)
    (determinantSet dependentSet : list string) : Py positive :=
  let* j := self_jvmCheck self "hasFunctionalDependency" in
  let* jvm1 := self_jvm self in
  let* jvm2 := self_jvm self in
  let* jvmCheck :=
    jvm_call (Engine.hasFunctionalDependency j
                (jc.iterableToScalaList jvm1 determinantSet)
                (jc.iterableToScalaList jvm2 dependentSet)) in
  return_Check self jvmCheck.

Definition hasForeignKey (self : positive) (referenceTable : DataFrame)
    (keyMap : string * string) (keyMaps : list (string * string)) : Py positive :=
  let* j := self_jvmCheck self "hasForeignKey" in
  let* jvm1 := self_jvm self in
  let* jvm2 := self_jvm self in
  let* tuples :=
    comprehension (fun t => let* jvm := self_jvm self in ret (jc.tuple2 jvm t))
                  keyMaps in
  let* jvmCheck :=
    jvm_call (Engine.hasForeignKey j (_jdf referenceTable)
                (jc.tuple2 jvm1 keyMap)
                (jc.iterableToScalaList jvm2 tuples)) in
  return_Check self jvmCheck.

Definition isJoinableWith (self : positive) (referenceTable : DataFrame)
    (keyMap : string * string) (keyMaps : list (string * string)) : Py positive :=
  let* j := self_jvmCheck self "isJoinableWith" in
  let* jvm1 := self_jvm self in
  let* jvm2 := self_jvm self in
  let* tuples :=
    comprehension (fun t => let* jvm := self_jvm self in ret (jc.tuple2 jvm t))
                  keyMaps in
  let* jvmCheck :=
    jvm_call (Engine.isJoinableWith j (_jdf referenceTable)
                (jc.tuple2 jvm1 keyMap)
                (jc.iterableToScalaList jvm2 tuples)) in
  return_Check self jvmCheck.

Definition satisfies (self : positive) (constraint : string) : Py positive :=
  let* j := self_jvmCheck self "satisfies" in
  let* jvmCheck := jvm_call (Engine.satisfies j constraint) in
  return_Check self jvmCheck.

(** [self.jvmCheck.run(jvmReporters)] on the JVM. *)
Definition jvm_run (j : Engine.Check) (jvmReporters : list Engine.Reporter)
    : Py Engine.VerificationResult :=
  fun w =>
    let r := Engine.run j jvmReporters (jvm w) in
    (Return (fst r), with_jvm (snd r) w).

(** [not reporters], for [reporters] being [None] (also when omitted) or a
    sequence. *)
Definition not_ {A} (reporters : option (list A)) : bool :=
  match reporters with
  | None => true
  | Some [] => true
  | Some (_ :: _) => false
  end.

Definition run (self : positive) (reporters : option (list reporters.Reporter))
    : Py Engine.VerificationResult :=
  let reporters :=
    if not_ reporters then [reporters.ConsoleReporter]
    else default [] reporters in
  let* jvm := self_jvm self in
  let* jvmReporterList :=
    comprehension
      (fun reporter =>
         let* jvm := self_jvm self in
         ret (reporters.getJvmReporter reporter jvm))
      reporters in
  let jvmReporters := jc.iterableToScalaList jvm jvmReporterList in
  let* j := self_jvmCheck self "run" in
  jvm_run j jvmReporters.

(** *** Calls of the constraint-adding methods, as data *)

Inductive AddCall :=
| call_hasUniqueKey (columnName : string) (columnNames : list string)
| call_isNeverNull (columnName : string)
| call_isAlwaysNull (columnName : string)
| call_isConvertibleTo (columnName : string) (targetType : string)
| call_isFormattedAsDate (columnName dateFormat : string)
| call_isAnyOf (columnName : string) (allowed : list value)
| call_isMatchingRegex (columnName regexp : string)
| call_hasFunctionalDependency (determinantSet dependentSet : list string)
| call_hasForeignKey (referenceTable : DataFrame) (keyMap : string * string)
    (keyMaps : list (string * string))
| call_isJoinableWith (referenceTable : DataFrame) (keyMap : string * string)
    (keyMaps : list (string * string))
| call_satisfies (constraint : string).

Definition invoke (self : positive) (call : AddCall) : Py positive :=
  match call with
  | call_hasUniqueKey columnName columnNames =>
      hasUniqueKey self columnName columnNames
  | call_isNeverNull columnName => isNeverNull self columnName
  | call_isAlwaysNull columnName => isAlwaysNull self columnName
  | call_isConvertibleTo columnName targetType =>
      isConvertibleTo self columnName targetType
  | call_isFormattedAsDate columnName dateFormat =>
      isFormattedAsDate self columnName dateFormat
  | call_isAnyOf columnName allowed => isAnyOf self columnName allowed
  | call_isMatchingRegex columnName regexp => isMatchingRegex self columnName regexp
  | call_hasFunctionalDependency determinantSet dependentSet =>
      hasFunctionalDependency self determinantSet dependentSet
  | call_hasForeignKey referenceTable keyMap keyMaps =>
      hasForeignKey self referenceTable keyMap keyMaps
  | call_isJoinableWith referenceTable keyMap keyMaps =>
      isJoinableWith self referenceTable keyMap keyMaps
  | call_satisfies constraint => satisfies self constraint
  end.

(** The constraint a call asks the engine to add. *)
Definition constraint_of (call : AddCall) : Engine.Constraint :=
  match call with
  | call_hasUniqueKey columnName columnNames =>
      Engine.UniqueKey (columnName :: columnNames)
  | call_isNeverNull columnName => Engine.NeverNull columnName
  | call_isAlwaysNull columnName => Engine.AlwaysNull columnName
  | call_isConvertibleTo columnName targetType =>
      Engine.ConvertibleTo columnName targetType
  | call_isFormattedAsDate columnName dateFormat =>
      Engine.FormattedAsDate columnName dateFormat
  | call_isAnyOf columnName allowed => Engine.AnyOf columnName (list_to_set allowed)
  | call_isMatchingRegex columnName regexp => Engine.MatchingRegex columnName regexp
  | call_hasFunctionalDependency determinantSet dependentSet =>
      Engine.FunctionalDependency determinantSet dependentSet
  | call_hasForeignKey referenceTable keyMap keyMaps =>
      Engine.ForeignKey (_jdf referenceTable) (keyMap :: keyMaps)
  | call_isJoinableWith referenceTable keyMap keyMaps =>
      Engine.Joinable (_jdf referenceTable) (keyMap :: keyMaps)
  | call_satisfies constraint => Engine.Satisfies constraint
  end.

(** *** Everything a client can do with the class *)

Inductive Operation :=
| op_new (dataFrame displayName jvmCheck : pyval)
| op_getattr (self : positive) (attr : string)
| op_invoke (self : positive) (call : AddCall)
| op_run (self : positive) (reporters : option (list reporters.Reporter)).

(** The world after an operation, whether it returned or raised. *)
Definition perform (w : World) (op : Operation) : World :=
  match op with
  | op_new dataFrame displayName jvmCheck =>
      snd (new dataFrame displayName jvmCheck w)
  | op_getattr self attr => snd (getattr self attr w)
  | op_invoke self call => snd (invoke self call w)
  | op_run self reporters => snd (run self reporters w)
  end.

(** The instance dictionary [__init__] leaves behind. *)
Definition instance_dict (df : DataFrame) (displayName : pyval)
    (j : Engine.Check) : gmap string pyval :=
  <["jvmCheck" := PyJavaObject j]>
    (<["_displayName" := displayName]>
       (<["_jvm" := PyJVMView (_sc_jvm df)]>
          (<["_dataFrame" := PyDataFrame df]> ∅))).

(** [self] is a Check object as the constructor builds it. *)
Definition is_Check (w : World) (self : positive) (df : DataFrame)
    (displayName : pyval) (j : Engine.Check) : Prop :=
  heap w !! self = Some (instance_dict df displayName j).

(** The engine check a direct construction creates. *)
Definition fresh_jvmCheck (w : World) (df : DataFrame) : Engine.Check :=
  {| Engine.dataSource := _jdf df;
     Engine.displayName := None;
     Engine.cacheMethod := None;
     Engine.constraints := [];
     Engine.id := uuid4_str w |}.

End Check.

(** ** The program of test_constraints.py *)

Module test_constraints.

(** [createDataFrame([(1, "a"), (1, None), (3, "c")])]. *)
Definition df : DataFrame :=
  {| _jdf :=
       {| Engine.schema := [("_1", "bigint"); ("_2", "string")];
          Engine.rows := [ [Some (VInt 1); Some (VStr "a")];
                           [Some (VInt 1); None];
                           [Some (VInt 3); Some (VStr "c")] ] |};
     _sc_jvm := jvm_view;
     __str__ := "DataFrame[_1: bigint, _2: string]" |}.

(** A process in which nothing has been built or run yet. *)
Definition setUp : World :=
  {| heap := ∅;
     uuid4_str := "<function uuid4 at 0x7f3b2c5d9c08>";
     jvm := {| Engine.collaborator :=
                 fun _ _ => (Engine.Error "not evaluated", "not evaluated");
               Engine.accesses := [];
               Engine.reports := [] |} |}.

(** The process once [Check(df)] has been evaluated; the Check is object 1. *)
Definition built : World :=
  snd (Check.new (PyDataFrame df) PyNone PyNone setUp).

(** Lines 21 to 23 of testHasUniqueKey. *)
Definition testHasUniqueKey : Py Engine.VerificationResult :=
  let* check0 := Check.new (PyDataFrame df) PyNone PyNone in
  let* check1 := Check.hasUniqueKey check0 "_1" [] in
  let* check := Check.hasUniqueKey check1 "_1" ["_2"] in
  Check.run check (Some [reporters.DummyReporter]).

(** The same checks, with the two constraints added on the engine handle
    and the result wrapped by the constructor. *)
Definition uniqueKeyOnHandle : Py Engine.VerificationResult :=
  let* check0 := Check.new (PyDataFrame df) PyNone PyNone in
  let* j0 := Check.self_jvmCheck check0 "hasUniqueKey" in
  let* j1 := jvm_call (Engine.hasUniqueKey j0 "_1" []) in
  let* j2 := jvm_call (Engine.hasUniqueKey j1 "_1" ["_2"]) in
  let* check := Check.new (PyDataFrame df) PyNone (PyJavaObject j2) in
  Check.run check (Some [reporters.DummyReporter]).

Definition expectedOutput : string :=
  String.concat newline
    [ "**Checking [_1: bigint, _2: string]**";
      "";
      "It has a total number of 2 columns and 3 rows.";
      "";
      "- *FAILURE*: Column _1 is not a key (1 non-unique tuple).";
      "- *SUCCESS*: Columns _1, _2 are a key." ].

(** Lines 35 to 37 of testIsNeverNull. *)
Definition testIsNeverNull : Py Engine.VerificationResult :=
  let* check0 := Check.new (PyDataFrame df) PyNone PyNone in
  let* check1 := Check.isNeverNull check0 "_1" in
  let* check := Check.isNeverNull check1 "_2" in
  Check.run check (Some [reporters.DummyReporter]).

(** [base] and [ref] of testHasForeignKey and testIsJoinableWith. *)
Definition base : DataFrame :=
  {| _jdf :=
       {| Engine.schema := [("_1", "bigint"); ("_2", "bigint"); ("_3", "bigint")];
          Engine.rows := [ [Some (VInt 1); Some (VInt 2); Some (VInt 3)];
                           [Some (VInt 1); Some (VInt 2); Some (VInt 5)];
                           [Some (VInt 1); Some (VInt 3); Some (VInt 3)] ] |};
     _sc_jvm := jvm_view;
     __str__ := "DataFrame[_1: bigint, _2: bigint, _3: bigint]" |}.

Definition ref : DataFrame :=
  {| _jdf :=
       {| Engine.schema := [("_1", "bigint"); ("_2", "bigint"); ("_3", "bigint")];
          Engine.rows := [ [Some (VInt 1); Some (VInt 2); Some (VInt 100)];
                           [Some (VInt 1); Some (VInt 3); Some (VInt 100)] ] |};
     _sc_jvm := jvm_view;
     __str__ := "DataFrame[_1: bigint, _2: bigint, _3: bigint]" |}.

(** Lines 154 to 163 of testHasForeignKey. *)
Definition testHasForeignKey : Py Engine.VerificationResult :=
  let columnTuple1 := ("_1", "_1") in
  let columnTuple2 := ("_2", "_2") in
  let* check0 := Check.new (PyDataFrame base) PyNone PyNone in
  let* check := Check.hasForeignKey check0 ref columnTuple1 [columnTuple2] in
  Check.run check (Some [reporters.DummyReporter]).

(** Lines 194 to 198 of testSatisfies. *)
Definition testSatisfies : Py Engine.VerificationResult :=
  let df :=
    {| _jdf :=
         {| Engine.schema := [("_1", "bigint"); ("_2", "string")];
            Engine.rows := [ [Some (VInt 1); Some (VStr "a")];
                             [Some (VInt 2); Some (VStr "a")];
                             [Some (VInt 3); Some (VStr "a")] ] |};
       _sc_jvm := jvm_view;
       __str__ := "DataFrame[_1: bigint, _2: string]" |} in
  let* check0 := Check.new (PyDataFrame df) PyNone PyNone in
  let* check1 := Check.satisfies check0 "_1 > 0" in
  let* check := Check.satisfies check1 "_2 = 'a'" in
  Check.run check (Some [reporters.DummyReporter]).

End test_constraints.

(** ** Clients of the class *)

(** The fluent chain [check.a(...).b(...)...]: each call is made on the
    Check the call before it returned. *)
Fixpoint chain (self : positive) (calls : list Check.AddCall) : Py positive :=
  match calls with
  | [] => ret self
  | call :: rest =>
      let* next := Check.invoke self call in
      chain next rest
  end.

(** [Check(dataFrame, displayName).a(...).b(...)....run(reporters)], the
    shape of every test of test_constraints.py. *)
Definition fluent (dataFrame displayName : pyval) (calls : list Check.AddCall)
    (reporters : option (list reporters.Reporter)) : Py Engine.VerificationResult :=
  let* check0 := Check.new dataFrame displayName PyNone in
  let* check := chain check0 calls in
  Check.run check reporters.

(** Whether a call returned rather than raised. *)
Definition returned {A} (o : outcome A) : bool :=
  match o with
  | Return _ => true
  | Raise _ => false
  end.


(** ** Footprints of computations *)

(** The argument [jvmCheck] of the constructor: omitted, or a handle. *)
Definition handle_arg (jvmCheck : option Engine.Check) : pyval :=
  match jvmCheck with
  | Some j => PyJavaObject j
  | None => PyNone
  end.

(** [m] leaves the process as it found it. *)
Definition Pure {A} (m : Py A) : Prop :=
  forall w, snd (m w) = w.

(** [m] writes to no object but [self]. *)
Definition Frame {A} (self : positive) (m : Py A) : Prop :=
  forall w l, l ≠ self -> heap (snd (m w)) !! l = heap w !! l.

(** [m] keeps every object that exists, attribute for attribute. *)
Definition Stable {A} (m : Py A) : Prop :=
  forall w l d, heap w !! l = Some d -> heap (snd (m w)) !! l = Some d.
(** [m] neither allocates nor writes: the heap is the one it found. *)
Definition KeepsHeap {A} (m : Py A) : Prop :=
  forall w, heap (snd (m w)) = heap w.

(** * Properties *)

(** ** The engine on small inputs *)

Example nonUniqueTuples_one_repeated :
  Engine.nonUniqueTuples
    [ [Some (VInt 1)]; [Some (VInt 1)]; [Some (VInt 3)] ] = 1.
Proof. reflexivity. Qed.

Example nonUniqueTuples_null_differs :
  Engine.nonUniqueTuples
    [ [Some (VInt 1); Some (VStr "a")]; [Some (VInt 1); None];
      [Some (VInt 3); Some (VStr "c")] ] = 0.
Proof. reflexivity. Qed.

Example keyTuples_unknown_column :
  Engine.keyTuples (_jdf test_constraints.df) ["_1"; "_3"] = None.
Proof. reflexivity. Qed.

Example toDisplayString_df :
  Engine.toDisplayString (_jdf test_constraints.df) = "[_1: bigint, _2: string]".
Proof. reflexivity. Qed.

Example addConstraint_appends :
  match Engine.hasUniqueKey
          (Check.fresh_jvmCheck test_constraints.setUp test_constraints.df) "_1" []
  with
  | inr j =>
      match Engine.isNeverNull j "_2" with
      | inr j' => Engine.constraints j'
      | inl _ => []
      end
  | inl _ => []
  end = [Engine.UniqueKey ["_1"]; Engine.NeverNull "_2"].
Proof. reflexivity. Qed.

Example addConstraint_rejects_empty :
  Engine.hasFunctionalDependency
    (Check.fresh_jvmCheck test_constraints.setUp test_constraints.df) ["_1"] []
  = inl (Engine.ConstructionError (Engine.FunctionalDependency ["_1"] [])).
Proof. reflexivity. Qed.

(** ** Stepping through a computation *)

Lemma bind_Return {A B} (m : Py A) (k : A -> Py B) w a w' :
  m w = (Return a, w') -> bind m k w = k a w'.
Proof. intros H. unfold bind. rewrite H. reflexivity. Qed.

Lemma bind_Raise {A B} (m : Py A) (k : A -> Py B) w e w' :
  m w = (Raise e, w') -> bind m k w = (Raise e, w').
Proof. intros H. unfold bind. rewrite H. reflexivity. Qed.

Lemma setattr_object self attr v h d w :
  setattr self attr v (with_heap (<[self := d]> h) w) =
    (Return tt, with_heap (<[self := <[attr := v]> d]> h) w).
Proof.
  unfold setattr, with_heap. simpl. rewrite alter_insert_eq. reflexivity.
Qed.

Lemma plain_attr_dict w self d attr :
  heap w !! self = Some d ->
  Check.plain_attr self attr w =
    match d !! attr with
    | Some v => (Return v, w)
    | None =>
        if bool_decide (attr ∈ Check.method_names)
        then (Return (PyBoundMethod self attr), w)
        else (Raise (AttributeError attr), w)
    end.
Proof.
  intros Hself. unfold Check.plain_attr, instance_attr. rewrite Hself. reflexivity.
Qed.

Lemma self_jvm_dict w self d v :
  heap w !! self = Some d -> d !! "_jvm" = Some (PyJVMView v) ->
  Check.self_jvm self w = (Return v, w).
Proof.
  intros Hself Hjvm. unfold Check.self_jvm.
  erewrite bind_Return; [ | rewrite (plain_attr_dict _ _ _ _ Hself), Hjvm; reflexivity ].
  reflexivity.
Qed.

Lemma init_direct self h w df displayName :
  Check.__init__ self (PyDataFrame df) displayName PyNone
      (with_heap (<[self := ∅]> h) w) =
    (Return tt,
     with_heap (<[self := Check.instance_dict df displayName (Check.fresh_jvmCheck w df)]> h) w).
Proof.
  unfold Check.__init__.
  erewrite bind_Return by apply setattr_object.
  erewrite bind_Return by reflexivity.
  erewrite bind_Return by apply setattr_object.
  erewrite bind_Return by apply setattr_object.
  do 3 (erewrite bind_Return
          by (eapply self_jvm_dict; [ apply lookup_insert_eq | reflexivity ])).
  erewrite bind_Return by reflexivity.
  cbn [truthy].
  erewrite bind_Return
    by (eapply self_jvm_dict; [ apply lookup_insert_eq | reflexivity ]).
  erewrite bind_Return by reflexivity.
  rewrite setattr_object. reflexivity.
Qed.

Lemma init_wrapping self h w df displayName j :
  Check.__init__ self (PyDataFrame df) displayName (PyJavaObject j)
      (with_heap (<[self := ∅]> h) w) =
    (Return tt, with_heap (<[self := Check.instance_dict df displayName j]> h) w).
Proof.
  unfold Check.__init__.
  erewrite bind_Return by apply setattr_object.
  erewrite bind_Return by reflexivity.
  erewrite bind_Return by apply setattr_object.
  erewrite bind_Return by apply setattr_object.
  do 3 (erewrite bind_Return
          by (eapply self_jvm_dict; [ apply lookup_insert_eq | reflexivity ])).
  erewrite bind_Return by reflexivity.
  cbn [truthy].
  rewrite setattr_object. reflexivity.
Qed.

Lemma new_constructs w df displayName jvmCheck :
  let self := fresh (dom (heap w)) in
  let j := default (Check.fresh_jvmCheck w df) jvmCheck in
  Check.new (PyDataFrame df) displayName (handle_arg jvmCheck) w =
    (Return self, with_heap (<[self := Check.instance_dict df displayName j]> (heap w)) w).
Proof.
  intros self j. unfold Check.new.
  erewrite bind_Return by reflexivity.
  destruct jvmCheck as [j'|]; simpl in *.
  - erewrite bind_Return by apply init_wrapping. reflexivity.
  - erewrite bind_Return by apply init_direct. reflexivity.
Qed.

(** ** Footprint lemmas *)

Lemma Pure_ret {A} (a : A) : Pure (ret a).
Proof. intros w. reflexivity. Qed.

Lemma Pure_raise {A} e : Pure (@raise A e).
Proof. intros w. reflexivity. Qed.

Lemma Pure_bind {A B} (m : Py A) (k : A -> Py B) :
  Pure m -> (forall a, Pure (k a)) -> Pure (bind m k).
Proof.
  intros Hm Hk w. unfold bind. specialize (Hm w).
  destruct (m w) as [[a|e] w']; simpl in Hm; subst w'; [ apply Hk | reflexivity ].
Qed.

Lemma Pure_plain_attr self attr : Pure (Check.plain_attr self attr).
Proof.
  intros w. unfold Check.plain_attr.
  destruct (instance_attr w self attr); [ reflexivity | ].
  destruct (bool_decide _); reflexivity.
Qed.

Lemma Pure_jvm_call {A} (r : Engine.EngineError + A) : Pure (jvm_call r).
Proof. destruct r; intros w; reflexivity. Qed.

Lemma Pure_comprehension {A B} (f : A -> Py B) l :
  (forall x, Pure (f x)) -> Pure (comprehension f l).
Proof.
  intros Hf. induction l as [|x l IH]; simpl.
  - apply Pure_ret.
  - apply Pure_bind; [ apply Hf | intros y ].
    apply Pure_bind; [ apply IH | intros ys; apply Pure_ret ].
Qed.

Create HintDb footprint.

#[local] Hint Resolve Pure_ret Pure_raise Pure_plain_attr Pure_jvm_call : footprint.

(** Decompose a computation along its binds and its case distinctions. *)
Ltac footprint :=
  repeat first
    [ progress intros
    | apply Pure_bind
    | apply Pure_comprehension
    | solve [ auto with footprint ]
    | match goal with
      | |- Pure (match ?x with _ => _ end) => destruct x
      | |- Pure (if ?b then _ else _) => destruct b
      end ].

Lemma Pure_self_jvm self : Pure (Check.self_jvm self).
Proof. unfold Check.self_jvm. footprint. Qed.

Lemma Pure_self_jvmCheck self method : Pure (Check.self_jvmCheck self method).
Proof. unfold Check.self_jvmCheck. footprint. Qed.

#[local] Hint Resolve Pure_self_jvm Pure_self_jvmCheck : footprint.

Lemma Pure_getattr self attr : Pure (Check.getattr self attr).
Proof.
  unfold Check.getattr, Check.dataFrame, Check.name, Check.cacheMethod, Check.id,
    Check.dataFrame.
  footprint.
Qed.

#[local] Hint Resolve Pure_getattr : footprint.

Lemma Pure_Frame {A} self (m : Py A) : Pure m -> Frame self m.
Proof. intros Hm w l _. rewrite Hm. reflexivity. Qed.

Lemma Pure_Stable {A} (m : Py A) : Pure m -> Stable m.
Proof. intros Hm w l d Hl. rewrite Hm. exact Hl. Qed.

Lemma Frame_bind {A B} self (m : Py A) (k : A -> Py B) :
  Frame self m -> (forall a, Frame self (k a)) -> Frame self (bind m k).
Proof.
  intros Hm Hk w l Hl. unfold bind. specialize (Hm w l Hl).
  destruct (m w) as [[a|e] w']; simpl in Hm; [ | exact Hm ].
  rewrite (Hk a w' l Hl). exact Hm.
Qed.

Lemma Frame_setattr self attr v : Frame self (setattr self attr v).
Proof. intros w l Hl. simpl. apply lookup_alter_ne. congruence. Qed.

Lemma Frame_init self dataFrame displayName jvmCheck :
  Frame self (Check.__init__ self dataFrame displayName jvmCheck).
Proof.
  unfold Check.__init__, attr_sc_jvm, attr_jdf, str_uuid4.
  repeat first
    [ progress intros
    | apply Frame_bind
    | apply Frame_setattr
    | solve [ apply Pure_Frame; footprint ]
    | solve [ apply Pure_Frame; intros w; reflexivity ]
    | match goal with
      | |- Frame _ (if ?b then _ else _) => destruct b
      end ].
Qed.

Lemma Stable_bind {A B} (m : Py A) (k : A -> Py B) :
  Stable m -> (forall a, Stable (k a)) -> Stable (bind m k).
Proof.
  intros Hm Hk w l d Hl. unfold bind. specialize (Hm w l d Hl).
  destruct (m w) as [[a|e] w']; simpl in Hm; [ | exact Hm ].
  apply Hk. exact Hm.
Qed.

Lemma Stable_new dataFrame displayName jvmCheck :
  Stable (Check.new dataFrame displayName jvmCheck).
Proof.
  intros w l d Hl. unfold Check.new.
  assert (Hfresh : l ≠ fresh (dom (heap w))).
  { intros ->. pose proof (is_fresh (dom (heap w))) as Hf.
    apply not_elem_of_dom in Hf. congruence. }
  erewrite bind_Return by reflexivity.
  pose proof (Frame_init (fresh (dom (heap w))) dataFrame displayName jvmCheck
                (with_heap (<[fresh (dom (heap w)) := ∅]> (heap w)) w) l Hfresh) as Hinit.
  unfold bind.
  destruct (Check.__init__ _ _ _ _ _) as [[u|e] w']; simpl in *;
    rewrite Hinit, lookup_insert_ne by congruence; exact Hl.
Qed.

Lemma Stable_jvm_run j jvmReporters : Stable (Check.jvm_run j jvmReporters).
Proof. intros w l d Hl. exact Hl. Qed.

Lemma Stable_return_Check self jvmCheck : Stable (Check.return_Check self jvmCheck).
Proof.
  unfold Check.return_Check.
  apply Stable_bind; [ apply Pure_Stable; footprint | intros dataFrame ].
  apply Stable_bind; [ apply Pure_Stable; footprint | intros displayName ].
  apply Stable_new.
Qed.

(** A method that reads, calls the engine and ends in [return_Check]. *)
Ltac stable :=
  repeat first
    [ progress intros
    | apply Stable_return_Check
    | apply Stable_jvm_run
    | apply Stable_bind; [ solve [ apply Pure_Stable; footprint ] | ] ].

Lemma Stable_invoke self call : Stable (Check.invoke self call).
Proof.
  destruct call; simpl;
    unfold Check.hasUniqueKey, Check.isNeverNull, Check.isAlwaysNull,
      Check.isConvertibleTo, Check.isFormattedAsDate, Check.isAnyOf,
      Check.isMatchingRegex, Check.hasFunctionalDependency, Check.hasForeignKey,
      Check.isJoinableWith, Check.satisfies;
    stable.
Qed.

Lemma Stable_run self reporters : Stable (Check.run self reporters).
Proof. unfold Check.run. stable. Qed.

(** No operation of the class changes an object that already exists. *)
Lemma perform_keeps w op l d :
  heap w !! l = Some d -> heap (Check.perform w op) !! l = Some d.
Proof.
  intros Hl. destruct op; simpl.
  - apply Stable_new, Hl.
  - rewrite Pure_getattr. exact Hl.
  - apply Stable_invoke, Hl.
  - apply Stable_run, Hl.
Qed.

Lemma foldl_perform_keeps ops w l d :
  heap w !! l = Some d -> heap (foldl Check.perform w ops) !! l = Some d.
Proof.
  revert w. induction ops as [|op ops IH]; intros w Hl; simpl.
  - exact Hl.
  - apply IH, perform_keeps, Hl.
Qed.

(** ** Reading the attributes of a constructed Check *)

(** Evaluate the next attribute read of a constructed Check. *)
Ltac read_attr Hself :=
  rewrite (plain_attr_dict _ _ _ _ Hself);
  match goal with
  | |- context [Check.instance_dict ?df ?dn ?j !! ?k] =>
      let r := eval vm_compute in (Check.instance_dict df dn j !! k) in
      change (Check.instance_dict df dn j !! k) with r
  end;
  try match goal with
  | |- context [bool_decide (?k ∈ Check.method_names)] =>
      let r := eval vm_compute in (bool_decide (k ∈ Check.method_names)) in
      change (bool_decide (k ∈ Check.method_names)) with r
  end;
  cbv beta iota.

Lemma comprehension_returns {A B} (f : A -> Py B) (g : A -> B) w l :
  (forall x, f x w = (Return (g x), w)) ->
  comprehension f l w = (Return (map g l), w).
Proof.
  intros Hf. induction l as [|x l IH]; simpl; [ reflexivity | ].
  erewrite bind_Return by apply Hf.
  erewrite bind_Return by apply IH.
  reflexivity.
Qed.

Section constructed_Check.

Context (w : World) (self : positive) (df : DataFrame) (displayName : pyval)
        (j : Engine.Check).
Hypothesis Hself : Check.is_Check w self df displayName j.

Lemma self_jvm_of_Check : Check.self_jvm self w = (Return (_sc_jvm df), w).
Proof. eapply self_jvm_dict; [ exact Hself | reflexivity ]. Qed.

Lemma self_jvmCheck_of_Check method :
  Check.self_jvmCheck self method w = (Return j, w).
Proof. unfold Check.self_jvmCheck, bind. read_attr Hself. reflexivity. Qed.

Lemma return_Check_raises jvmCheck :
  Check.return_Check self jvmCheck w = (Raise (AttributeError "displayName"), w).
Proof.
  unfold Check.return_Check, bind, Check.getattr. simpl.
  unfold Check.dataFrame. read_attr Hself. read_attr Hself. reflexivity.
Qed.

Lemma tuples_of_Check (keyMaps : list (string * string)) :
  comprehension
    (fun t => let* jvm := Check.self_jvm self in ret (jc.tuple2 jvm t)) keyMaps w =
    (Return keyMaps, w).
Proof.
  rewrite <- (map_id keyMaps) at 2. apply comprehension_returns.
  intros t. erewrite bind_Return by apply self_jvm_of_Check. reflexivity.
Qed.

(** What a constraint-adding call does: the engine builds its new check or
    rejects the constraint, and the wrapper then fails to read
    [self.displayName]. *)
Lemma invoke_of_Check call :
  Check.invoke self call w =
    match Engine.addConstraint j (Check.constraint_of call) with
    | inl e => (Raise (Py4JJavaError e), w)
    | inr _ => (Raise (AttributeError "displayName"), w)
    end.
Proof.
  destruct call; cbn [Check.invoke Check.constraint_of];
    unfold Check.hasUniqueKey, Check.isNeverNull, Check.isAlwaysNull,
      Check.isConvertibleTo, Check.isFormattedAsDate, Check.isAnyOf,
      Check.isMatchingRegex, Check.hasFunctionalDependency, Check.hasForeignKey,
      Check.isJoinableWith, Check.satisfies;
    repeat first
      [ erewrite bind_Return by apply self_jvmCheck_of_Check
      | erewrite bind_Return by apply self_jvm_of_Check
      | erewrite bind_Return by apply tuples_of_Check ];
    unfold Engine.hasUniqueKey, Engine.isNeverNull, Engine.isAlwaysNull,
      Engine.isConvertibleTo, Engine.isFormattedAsDate, Engine.isAnyOf,
      Engine.isMatchingRegex, Engine.hasFunctionalDependency, Engine.hasForeignKey,
      Engine.isJoinableWith, Engine.satisfies,
      jc.iterableToScalaList, jc.iterableToScalaSet, jc.tuple2, jc.simpleDateFormat;
    match goal with
    | |- context [Engine.addConstraint ?c ?k] =>
        destruct (Engine.addConstraint c k) as [e|j'] eqn:Hadd
    end; cbn [jvm_call].
  all: first
         [ erewrite bind_Raise by reflexivity; reflexivity
         | erewrite bind_Return by reflexivity; apply return_Check_raises ].
Qed.

(** What [run] does: the reporters, or the console reporter in their
    place, are converted in order and handed to the engine's [run]. *)
Lemma run_of_Check reporters :
  Check.run self reporters w =
    Check.jvm_run j
      (map (fun r => reporters.getJvmReporter r (_sc_jvm df))
           (if Check.not_ reporters then [reporters.ConsoleReporter]
            else default [] reporters)) w.
Proof.
  unfold Check.run.
  erewrite bind_Return by apply self_jvm_of_Check.
  erewrite bind_Return.
  2:{ apply comprehension_returns with
        (g := fun r => reporters.getJvmReporter r (_sc_jvm df)).
      intros r. erewrite bind_Return by apply self_jvm_of_Check. reflexivity. }
  erewrite bind_Return by apply self_jvmCheck_of_Check.
  reflexivity.
Qed.

Lemma name_of_Check :
  Check.name self w =
    (Return (if truthy displayName then displayName else PyStr (__str__ df)), w).
Proof.
  unfold Check.name, bind. read_attr Hself.
  destruct (truthy displayName); [ reflexivity | ].
  unfold Check.dataFrame. read_attr Hself. reflexivity.
Qed.

Lemma cacheMethod_of_Check :
  Check.cacheMethod self w = (Raise (AttributeError "_cacheMethod"), w).
Proof. unfold Check.cacheMethod. read_attr Hself. reflexivity. Qed.

Lemma id_of_Check : Check.id self w = (Raise (AttributeError "_id"), w).
Proof. unfold Check.id, bind. read_attr Hself. reflexivity. Qed.

End constructed_Check.

(** * The specification, statement by statement *)

(** The two ways a constraint-adding call on a constructed Check ends. *)
Lemma add_call_raises_on_Check w self df displayName j call :
  Check.is_Check w self df displayName j ->
  Engine.has_empty_argument (Check.constraint_of call) = false ->
  Check.invoke self call w = (Raise (AttributeError "displayName"), w).
Proof.
  intros Hself Hargs. rewrite (invoke_of_Check _ _ _ _ _ Hself).
  unfold Engine.addConstraint. rewrite Hargs. reflexivity.
Qed.

Lemma add_call_rejected_on_Check w self df displayName j call :
  Check.is_Check w self df displayName j ->
  Engine.has_empty_argument (Check.constraint_of call) = true ->
  Check.invoke self call w =
    (Raise (Py4JJavaError (Engine.ConstructionError (Check.constraint_of call))), w).
Proof.
  intros Hself Hargs. rewrite (invoke_of_Check _ _ _ _ _ Hself).
  unfold Engine.addConstraint. rewrite Hargs. reflexivity.
Qed.

(** C1. A constraint-adding call is meant to return a new Check and to leave
    its receiver untouched.  On a Check built by the constructor, every such
    call whose constraint the engine accepts raises AttributeError for
    [self.displayName] (the class defines [_displayName] and the property
    [name] only): no Check is returned.  The process is left exactly as it
    was, so the receiver, its dataFrame, its display name and its engine
    check are untouched and a later [run] of it behaves as before. *)
Theorem add_call_raises_AttributeError w self df displayName j call :
  Check.is_Check w self df displayName j ->
  Engine.has_empty_argument (Check.constraint_of call) = false ->
  Check.invoke self call w = (Raise (AttributeError "displayName"), w)
  /\ Check.is_Check (snd (Check.invoke self call w)) self df displayName j
  /\ forall reporters,
       Check.run self reporters (snd (Check.invoke self call w)) =
         Check.run self reporters w.
Proof.
  intros Hself Hargs.
  rewrite (add_call_raises_on_Check _ _ _ _ _ _ Hself Hargs).
  split; [ reflexivity | ]. split; [ exact Hself | reflexivity ].
Qed.

Lemma add_call_raises_AttributeError_witness :
  Check.is_Check test_constraints.built 1%positive test_constraints.df PyNone
    (Check.fresh_jvmCheck test_constraints.setUp test_constraints.df)
  /\ Check.invoke 1%positive (Check.call_hasUniqueKey "_1" []) test_constraints.built =
       (Raise (AttributeError "displayName"), test_constraints.built).
Proof.
  split; [ reflexivity | ].
  apply (add_call_raises_AttributeError test_constraints.built 1%positive
           test_constraints.df PyNone
           (Check.fresh_jvmCheck test_constraints.setUp test_constraints.df)
           (Check.call_hasUniqueKey "_1" [])).
  - reflexivity.
  - reflexivity.
Defined.

(** C2. Every Check built without a handle is meant to get a fresh unique
    id.  The constructor passes [str(uuid4)], the rendering of the function
    object, to the engine: two Checks built one after the other are distinct
    objects whose engine checks carry the same id, and reading the property
    [id] of either raises AttributeError, [_id] being assigned nowhere. *)
Theorem independent_Checks_share_engine_id w df1 displayName1 df2 displayName2 :
  exists c1 c2 w' j1 j2,
    (let* c1 := Check.new (PyDataFrame df1) displayName1 PyNone in
     let* c2 := Check.new (PyDataFrame df2) displayName2 PyNone in
     ret (c1, c2)) w = (Return (c1, c2), w')
    /\ c1 ≠ c2
    /\ Check.is_Check w' c1 df1 displayName1 j1
    /\ Check.is_Check w' c2 df2 displayName2 j2
    /\ Engine.id j1 = uuid4_str w
    /\ Engine.id j2 = Engine.id j1
    /\ Check.id c1 w' = (Raise (AttributeError "_id"), w')
    /\ Check.id c2 w' = (Raise (AttributeError "_id"), w').
Proof.
  pose proof (new_constructs w df1 displayName1 None) as H1. simpl in H1.
  set (c1 := fresh (dom (heap w))) in *.
  set (w1 := with_heap _ w) in H1.
  pose proof (new_constructs w1 df2 displayName2 None) as H2. simpl in H2.
  set (c2 := fresh (dom (heap w1))) in *.
  set (w2 := with_heap _ w1) in H2.
  assert (Hne : c1 ≠ c2).
  { intros Heq. pose proof (is_fresh (dom (heap w1))) as Hf.
    apply Hf. fold c2. rewrite <- Heq. apply elem_of_dom.
    exists (Check.instance_dict df1 displayName1 (Check.fresh_jvmCheck w df1)).
    apply lookup_insert_eq. }
  assert (Hc2 : Check.is_Check w2 c2 df2 displayName2 (Check.fresh_jvmCheck w1 df2)).
  { apply lookup_insert_eq. }
  assert (Hc1 : Check.is_Check w2 c1 df1 displayName1 (Check.fresh_jvmCheck w df1)).
  { unfold Check.is_Check, w2. simpl.
    rewrite lookup_insert_ne by (intros Heq; apply Hne; symmetry; exact Heq).
    apply lookup_insert_eq. }
  exists c1, c2, w2, (Check.fresh_jvmCheck w df1), (Check.fresh_jvmCheck w1 df2).
  split.
  { erewrite bind_Return by exact H1. erewrite bind_Return by exact H2. reflexivity. }
  repeat split; try assumption; try reflexivity.
  - exact (id_of_Check _ _ _ _ _ Hc1).
  - exact (id_of_Check _ _ _ _ _ Hc2).
Qed.

(** C3. A constraint-adding call with an empty argument raises the
    engine's construction error at once: the engine is asked first and
    rejects the constraint, the error propagates, and the process is left as
    it was, so no query has run against a data source.  hasUniqueKey always
    hands the engine at least one column. *)
Theorem empty_argument_raises_ConstructionError w self df displayName j call :
  Check.is_Check w self df displayName j ->
  Engine.has_empty_argument (Check.constraint_of call) = true ->
  Check.invoke self call w =
    (Raise (Py4JJavaError (Engine.ConstructionError (Check.constraint_of call))), w)
  /\ Engine.accesses (jvm (snd (Check.invoke self call w))) = Engine.accesses (jvm w)
  /\ (forall columnName columnNames,
        Engine.has_empty_argument
          (Check.constraint_of (Check.call_hasUniqueKey columnName columnNames)) = false).
Proof.
  intros Hself Hargs.
  rewrite (add_call_rejected_on_Check _ _ _ _ _ _ Hself Hargs).
  split; [ reflexivity | ]. split; [ reflexivity | ].
  intros columnName columnNames. reflexivity.
Qed.

Lemma empty_argument_raises_ConstructionError_witness :
  Check.is_Check test_constraints.built 1%positive test_constraints.df PyNone
    (Check.fresh_jvmCheck test_constraints.setUp test_constraints.df)
  /\ Check.invoke 1%positive (Check.call_hasFunctionalDependency [] ["_2"])
        test_constraints.built =
      (Raise (Py4JJavaError
                (Engine.ConstructionError (Engine.FunctionalDependency [] ["_2"]))),
       test_constraints.built).
Proof.
  split; [ reflexivity | ].
  apply (empty_argument_raises_ConstructionError test_constraints.built 1%positive
           test_constraints.df PyNone
           (Check.fresh_jvmCheck test_constraints.setUp test_constraints.df)
           (Check.call_hasFunctionalDependency [] ["_2"])).
  - reflexivity.
  - reflexivity.
Defined.

(** C4. The Check a constraint-adding call returns is meant to share the
    receiver's dataFrame, display name and cache method and to hold one
    more constraint at the end.  The engine check built for the call does
    (same data source, display name and cache method, the constraint
    appended last), but the call never returns a Check that wraps it: it
    raises, and nothing is allocated. *)
Theorem derived_Check_is_dropped w self df displayName j call j' :
  Check.is_Check w self df displayName j ->
  Engine.addConstraint j (Check.constraint_of call) = inr j' ->
  (Engine.dataSource j' = Engine.dataSource j
   /\ Engine.displayName j' = Engine.displayName j
   /\ Engine.cacheMethod j' = Engine.cacheMethod j
   /\ Engine.constraints j' = (Engine.constraints j ++ [Check.constraint_of call])%list)
  /\ (forall c' w', Check.invoke self call w ≠ (Return c', w'))
  /\ heap (snd (Check.invoke self call w)) = heap w.
Proof.
  intros Hself Hadd. split.
  - unfold Engine.addConstraint in Hadd.
    destruct (Engine.has_empty_argument _); [ discriminate | ].
    injection Hadd as <-. simpl. auto.
  - rewrite (invoke_of_Check _ _ _ _ _ Hself), Hadd.
    split; [ intros c' w'; discriminate | reflexivity ].
Qed.

Lemma derived_Check_is_dropped_witness :
  Check.is_Check test_constraints.built 1%positive test_constraints.df PyNone
    (Check.fresh_jvmCheck test_constraints.setUp test_constraints.df)
  /\ heap (snd (Check.invoke 1%positive (Check.call_isNeverNull "_1")
                  test_constraints.built)) = heap test_constraints.built.
Proof.
  split; [ reflexivity | ].
  refine (proj2 (proj2
    (derived_Check_is_dropped test_constraints.built 1%positive
       test_constraints.df PyNone
       (Check.fresh_jvmCheck test_constraints.setUp test_constraints.df)
       (Check.call_isNeverNull "_1")
       {| Engine.dataSource := _jdf test_constraints.df;
          Engine.displayName := None;
          Engine.cacheMethod := None;
          Engine.constraints := [Engine.NeverNull "_1"];
          Engine.id := uuid4_str test_constraints.setUp |} _ _))).
  - reflexivity.
  - reflexivity.
Defined.

(** C5. [run] with no reporters (the argument omitted or None, or an empty
    sequence) hands the engine exactly one reporter, the console one, and
    the run is reported through it once. *)
Theorem run_defaults_to_ConsoleReporter w self df displayName j reporters :
  Check.is_Check w self df displayName j ->
  reporters = None \/ reporters = Some [] ->
  exists result w',
    Check.run self reporters w = (Return result, w')
    /\ result = Engine.verify (jvm w) j
    /\ Engine.reports (jvm w') =
         (Engine.reports (jvm w) ++ [(Engine.ConsoleReporter, result)])%list
    /\ heap w' = heap w.
Proof.
  intros Hself Hnone. rewrite (run_of_Check _ _ _ _ _ Hself).
  assert (Hnot : Check.not_ reporters = true) by (destruct Hnone; subst; reflexivity).
  rewrite Hnot. do 2 eexists. split; [ reflexivity | ]. repeat split.
Qed.

Lemma run_defaults_to_ConsoleReporter_witness :
  Check.is_Check test_constraints.built 1%positive test_constraints.df PyNone
    (Check.fresh_jvmCheck test_constraints.setUp test_constraints.df)
  /\ exists result w',
       Check.run 1%positive None test_constraints.built = (Return result, w')
       /\ result = Engine.verify (jvm test_constraints.built)
                     (Check.fresh_jvmCheck test_constraints.setUp test_constraints.df)
       /\ Engine.reports (jvm w') =
            (Engine.reports (jvm test_constraints.built)
             ++ [(Engine.ConsoleReporter, result)])%list
       /\ heap w' = heap test_constraints.built.
Proof.
  split; [ reflexivity | ].
  apply (run_defaults_to_ConsoleReporter test_constraints.built 1%positive
           test_constraints.df PyNone
           (Check.fresh_jvmCheck test_constraints.setUp test_constraints.df) None).
  - reflexivity.
  - left. reflexivity.
Defined.

(** C6. [run] with a non-empty sequence of reporters reports the one
    VerificationResult through each of them, once per occurrence and in the
    order of the sequence: the invocations of [report] recorded by the run
    are the sequence itself, reporter by reporter. *)
Theorem run_reports_in_order w self df displayName j reporters :
  Check.is_Check w self df displayName j ->
  reporters ≠ [] ->
  exists result w',
    Check.run self (Some reporters) w = (Return result, w')
    /\ result = Engine.verify (jvm w) j
    /\ Engine.reports (jvm w') =
         (Engine.reports (jvm w)
          ++ map (fun r => (reporters.getJvmReporter r (_sc_jvm df), result))
                 reporters)%list.
Proof.
  intros Hself Hne. rewrite (run_of_Check _ _ _ _ _ Hself).
  destruct reporters as [|r rs]; [ congruence | ].
  cbn [Check.not_ default]. do 2 eexists. split; [ reflexivity | ].
  split; [ reflexivity | ].
  cbn [Check.jvm_run snd with_jvm jvm Engine.run Engine.reports].
  rewrite map_map. reflexivity.
Qed.

Lemma run_reports_in_order_witness :
  Check.is_Check test_constraints.built 1%positive test_constraints.df PyNone
    (Check.fresh_jvmCheck test_constraints.setUp test_constraints.df)
  /\ exists result w',
       Check.run 1%positive
         (Some [reporters.DummyReporter; reporters.ConsoleReporter;
                reporters.DummyReporter])
         test_constraints.built = (Return result, w')
       /\ result = Engine.verify (jvm test_constraints.built)
                     (Check.fresh_jvmCheck test_constraints.setUp test_constraints.df)
       /\ Engine.reports (jvm w') =
            [ (Engine.StreamReporter "DummyReporter", result);
              (Engine.ConsoleReporter, result);
              (Engine.StreamReporter "DummyReporter", result) ].
Proof.
  split; [ reflexivity | ].
  apply (run_reports_in_order test_constraints.built 1%positive
           test_constraints.df PyNone
           (Check.fresh_jvmCheck test_constraints.setUp test_constraints.df)
           [reporters.DummyReporter; reporters.ConsoleReporter;
            reporters.DummyReporter]).
  - reflexivity.
  - discriminate.
Defined.

(** C7, as stated: a Check built with an explicit displayName is named by
    it.  The empty string is an explicit displayName that [name] replaces
    by [str(dataFrame)]. *)
Lemma name_of_empty_displayName :
  ~ (forall (w : World) (df : DataFrame) (displayName : string),
       fst ((let* c := Check.new (PyDataFrame df) (PyStr displayName) PyNone in
             Check.name c) w) = Return (PyStr displayName)).
Proof.
  intros H. specialize (H test_constraints.setUp test_constraints.df "").
  vm_compute in H. discriminate H.
Qed.

(** C7, amended.  The name of a Check is the displayName it was built with
    when that is neither None nor the empty string, and [str(dataFrame)],
    the rendering of the data frame with its schema, when the displayName
    was omitted, None or empty. *)
Theorem name_after_construction w df displayName jvmCheck :
  fst ((let* c := Check.new (PyDataFrame df) displayName (handle_arg jvmCheck) in
        Check.name c) w) =
    Return (match displayName with
            | PyNone | PyStr "" => PyStr (__str__ df)
            | _ => displayName
            end).
Proof.
  erewrite bind_Return by apply new_constructs.
  erewrite name_of_Check by apply lookup_insert_eq.
  destruct displayName as [|s| | | |]; try reflexivity.
  destruct s; reflexivity.
Qed.

(** The engine on the data frame of testHasUniqueKey, reached through the
    handle: a check holding hasUniqueKey on [_1] and then on [_1, _2] runs
    to a Failure citing 1 non-unique tuple followed by a Success, and the
    report handed to the reporter renders as the text the test expects, one
    bullet line per constraint in registration order. *)
Lemma uniqueKey_on_test_dataset w :
  exists result w',
    test_constraints.uniqueKeyOnHandle w = (Return result, w')
    /\ map Engine.status (Engine.constraintResults result) =
         [Engine.Failure 1; Engine.Success]
    /\ map Engine.bulletLine (Engine.constraintResults result) =
         [ "- *FAILURE*: Column _1 is not a key (1 non-unique tuple).";
           "- *SUCCESS*: Columns _1, _2 are a key." ]
    /\ Engine.render result = test_constraints.expectedOutput
    /\ Engine.reports (jvm w') =
         (Engine.reports (jvm w)
          ++ [(Engine.StreamReporter "DummyReporter", result)])%list.
Proof.
  unfold test_constraints.uniqueKeyOnHandle.
  pose proof (new_constructs w test_constraints.df PyNone None) as H1.
  cbn zeta in H1. cbn [handle_arg default] in H1.
  do 2 eexists. split.
  { erewrite bind_Return by exact H1.
    erewrite bind_Return by (eapply self_jvmCheck_of_Check; apply lookup_insert_eq).
    erewrite bind_Return by reflexivity.
    erewrite bind_Return by reflexivity.
    erewrite bind_Return by apply (new_constructs _ _ _ (Some _)).
    erewrite run_of_Check by apply lookup_insert_eq.
    reflexivity. }
  repeat split.
Qed.

(** C8. testHasUniqueKey expects, for the data frame
    [(1,"a"), (1,None), (3,"c")], a report with the bullet lines
    [- *FAILURE*: ...] for hasUniqueKey on [_1] and [- *SUCCESS*: ...] for
    hasUniqueKey on [_1, _2].  The program of the test does not get that
    far: its first hasUniqueKey call raises AttributeError for
    [self.displayName], so no Check holding the constraints is built,
    nothing is run and nothing is reported. *)
Theorem testHasUniqueKey_raises w :
  exists w',
    test_constraints.testHasUniqueKey w = (Raise (AttributeError "displayName"), w')
    /\ Engine.reports (jvm w') = Engine.reports (jvm w)
    /\ Engine.accesses (jvm w') = Engine.accesses (jvm w).
Proof.
  unfold test_constraints.testHasUniqueKey.
  pose proof (new_constructs w test_constraints.df PyNone None) as H1.
  cbn zeta in H1. cbn [handle_arg default] in H1.
  eexists. split.
  { erewrite bind_Return by exact H1.
    erewrite bind_Raise; [ reflexivity | ].
    eapply (add_call_raises_on_Check _ _ _ _ _ (Check.call_hasUniqueKey "_1" []));
      [ apply lookup_insert_eq | reflexivity ]. }
  split; reflexivity.
Qed.

(** C9. A Check built without a handle creates its engine check with no
    display name, no cache method and no constraint, whatever displayName
    the constructor is given; the displayName is kept in [_displayName] of
    the Python object only, the engine is not otherwise touched, and a run
    reports under the engine's own rendering of the schema. *)
Theorem direct_construction_engine_check w df displayName :
  exists self w',
    Check.new (PyDataFrame df) displayName PyNone w = (Return self, w')
    /\ Check.is_Check w' self df displayName
         {| Engine.dataSource := _jdf df;
            Engine.displayName := None;
            Engine.cacheMethod := None;
            Engine.constraints := [];
            Engine.id := uuid4_str w |}
    /\ jvm w' = jvm w
    /\ forall reporters,
         Engine.checkName
           (Engine.checkMetadata (Engine.verify (jvm w') 
              {| Engine.dataSource := _jdf df;
                 Engine.displayName := None;
                 Engine.cacheMethod := None;
                 Engine.constraints := [];
                 Engine.id := uuid4_str w |})) = Engine.toDisplayString (_jdf df)
         /\ fst (Check.run self reporters w') =
              Return (Engine.verify (jvm w')
                {| Engine.dataSource := _jdf df;
                   Engine.displayName := None;
                   Engine.cacheMethod := None;
                   Engine.constraints := [];
                   Engine.id := uuid4_str w |}).
Proof.
  pose proof (new_constructs w df displayName None) as Hnew.
  cbn zeta in Hnew. cbn [handle_arg default] in Hnew.
  do 2 eexists. split; [ exact Hnew | ].
  split; [ apply lookup_insert_eq | ].
  split; [ reflexivity | ].
  intros reporters. split; [ reflexivity | ].
  erewrite run_of_Check by apply lookup_insert_eq. reflexivity.
Qed.

(** C10. Reading [cacheMethod] of a Check built by the constructor raises
    AttributeError for [_cacheMethod]: the constructor does not assign it,
    and no sequence of operations of the class (constructions, attribute
    reads, constraint-adding calls, runs, on any objects) assigns it
    later. *)
Theorem cacheMethod_raises_AttributeError w df displayName jvmCheck :
  exists self w',
    Check.new (PyDataFrame df) displayName (handle_arg jvmCheck) w = (Return self, w')
    /\ forall ops,
         Check.cacheMethod self (foldl Check.perform w' ops) =
           (Raise (AttributeError "_cacheMethod"), foldl Check.perform w' ops).
Proof.
  do 2 eexists. split; [ apply new_constructs | ].
  intros ops. eapply cacheMethod_of_Check.
  apply foldl_perform_keeps, lookup_insert_eq.
Qed.

(** * Further properties of the class *)

(** ** Attribute reads on arbitrary instance dictionaries *)

Lemma self_jvmCheck_dict w self d j method :
  heap w !! self = Some d -> d !! "jvmCheck" = Some (PyJavaObject j) ->
  Check.self_jvmCheck self method w = (Return j, w).
Proof.
  intros Hself Hj. unfold Check.self_jvmCheck.
  erewrite bind_Return; [ | rewrite (plain_attr_dict _ _ _ _ Hself), Hj; reflexivity ].
  reflexivity.
Qed.

Lemma tuples_dict w self d v (keyMaps : list (string * string)) :
  heap w !! self = Some d -> d !! "_jvm" = Some (PyJVMView v) ->
  comprehension
    (fun t => let* jvm := Check.self_jvm self in ret (jc.tuple2 jvm t)) keyMaps w =
    (Return keyMaps, w).
Proof.
  intros Hself Hjvm. rewrite <- (map_id keyMaps) at 2. apply comprehension_returns.
  intros t. erewrite bind_Return by (eapply self_jvm_dict; eassumption). reflexivity.
Qed.

(** A constraint-adding call on any object that has [jvmCheck] and [_jvm]:
    the engine is asked, and its answer decides between the exception and
    the tail [return Check(...)]. *)
Lemma invoke_dict w self d j v call :
  heap w !! self = Some d ->
  d !! "jvmCheck" = Some (PyJavaObject j) ->
  d !! "_jvm" = Some (PyJVMView v) ->
  Check.invoke self call w =
    match Engine.addConstraint j (Check.constraint_of call) with
    | inl e => (Raise (Py4JJavaError e), w)
    | inr j' => Check.return_Check self j' w
    end.
Proof.
  intros Hself Hj Hjvm.
  destruct call; cbn [Check.invoke Check.constraint_of];
    unfold Check.hasUniqueKey, Check.isNeverNull, Check.isAlwaysNull,
      Check.isConvertibleTo, Check.isFormattedAsDate, Check.isAnyOf,
      Check.isMatchingRegex, Check.hasFunctionalDependency, Check.hasForeignKey,
      Check.isJoinableWith, Check.satisfies;
    repeat first
      [ erewrite bind_Return by (eapply self_jvmCheck_dict; eassumption)
      | erewrite bind_Return by (eapply self_jvm_dict; eassumption)
      | erewrite bind_Return by (eapply tuples_dict; eassumption) ];
    unfold Engine.hasUniqueKey, Engine.isNeverNull, Engine.isAlwaysNull,
      Engine.isConvertibleTo, Engine.isFormattedAsDate, Engine.isAnyOf,
      Engine.isMatchingRegex, Engine.hasFunctionalDependency, Engine.hasForeignKey,
      Engine.isJoinableWith, Engine.satisfies,
      jc.iterableToScalaList, jc.iterableToScalaSet, jc.tuple2, jc.simpleDateFormat;
    match goal with
    | |- context [Engine.addConstraint ?c ?k] =>
        destruct (Engine.addConstraint c k) as [e|j'] eqn:Hadd
    end; cbn [jvm_call].
  all: first
         [ erewrite bind_Raise by reflexivity; reflexivity
         | erewrite bind_Return by reflexivity; reflexivity ].
Qed.




(** ** Constructed objects through later operations *)

Lemma is_Check_kept w self df displayName j ops :
  Check.is_Check w self df displayName j ->
  Check.is_Check (foldl Check.perform w ops) self df displayName j.
Proof. apply foldl_perform_keeps. Qed.

(** X2. What the constructor is given can be read back, and stays so: after
    [Check(dataFrame, displayName, jvmCheck)] and any further operations of
    the class, on this or on other objects, [dataFrame] is the data frame
    given, [_displayName] the displayName given, [jvmCheck] the handle given
    (or the engine check created when none was), and [name] the value it
    had at construction.  The object returned is a new one. *)
Theorem constructor_arguments_read_back w df displayName jvmCheck ops :
  exists self w',
    Check.new (PyDataFrame df) displayName (handle_arg jvmCheck) w = (Return self, w')
    /\ heap w !! self = None
    /\ let w'' := foldl Check.perform w' ops in
       Check.getattr self "dataFrame" w'' = (Return (PyDataFrame df), w'')
       /\ Check.getattr self "_displayName" w'' = (Return displayName, w'')
       /\ Check.getattr self "jvmCheck" w'' =
            (Return (PyJavaObject (default (Check.fresh_jvmCheck w df) jvmCheck)), w'')
       /\ Check.getattr self "name" w'' =
            (Return (if truthy displayName then displayName else PyStr (__str__ df)),
             w'').
Proof.
  do 2 eexists. split; [ apply new_constructs | ].
  split; [ apply not_elem_of_dom, is_fresh | ].
  intros w''.
  assert (Hself : Check.is_Check w'' (fresh (dom (heap w))) df displayName
                    (default (Check.fresh_jvmCheck w df) jvmCheck))
    by apply is_Check_kept, lookup_insert_eq.
  unfold Check.getattr.
  repeat split.
  - rewrite bool_decide_eq_true_2 by reflexivity.
    unfold Check.dataFrame. read_attr Hself. reflexivity.
  - rewrite !bool_decide_eq_false_2 by discriminate. read_attr Hself. reflexivity.
  - rewrite !bool_decide_eq_false_2 by discriminate. read_attr Hself. reflexivity.
  - rewrite bool_decide_eq_false_2 by discriminate.
    rewrite bool_decide_eq_true_2 by reflexivity.
    apply (name_of_Check _ _ _ _ _ Hself).
Qed.

(** ** What the operations do to the heap *)

Lemma Pure_KeepsHeap {A} (m : Py A) : Pure m -> KeepsHeap m.
Proof. intros Hm w. rewrite Hm. reflexivity. Qed.

Lemma KeepsHeap_bind {A B} (m : Py A) (k : A -> Py B) :
  KeepsHeap m -> (forall a, KeepsHeap (k a)) -> KeepsHeap (bind m k).
Proof.
  intros Hm Hk w. unfold bind. specialize (Hm w).
  destruct (m w) as [[a|e] w']; simpl in Hm; [ | exact Hm ].
  rewrite Hk. exact Hm.
Qed.

Lemma KeepsHeap_run self reporters : KeepsHeap (Check.run self reporters).
Proof.
  unfold Check.run.
  repeat (apply KeepsHeap_bind; [ apply Pure_KeepsHeap; footprint | intros ? ]).
  intros w. reflexivity.
Qed.

(** X3. The class never writes to an object once its constructor has
    returned, and never removes one: after any sequence of constructions,
    attribute reads, constraint-adding calls and runs, every object of the
    heap is still there with the dictionary it had.  Attribute reads and
    runs do not allocate either: they leave the heap as it is. *)
Theorem operations_keep_objects w ops :
  heap w ⊆ heap (foldl Check.perform w ops)
  /\ (forall self attr, heap (Check.perform w (Check.op_getattr self attr)) = heap w)
  /\ (forall self reporters,
        heap (Check.perform w (Check.op_run self reporters)) = heap w).
Proof.
  split; [ | split ].
  - apply map_subseteq_spec. intros l d Hl. apply foldl_perform_keeps, Hl.
  - intros self attr. simpl. rewrite Pure_getattr. reflexivity.
  - intros self reporters. apply KeepsHeap_run.
Qed.

(** ** Composing computations *)

Lemma bind_assoc {A B C} (m : Py A) (k : A -> Py B) (k' : B -> Py C) w :
  bind (bind m k) k' w = bind m (fun a => bind (k a) k') w.
Proof.
  unfold bind. destruct (m w) as [[a|e] w1]; [ | reflexivity ].
  destruct (k a w1) as [[b|e] w2]; reflexivity.
Qed.

Lemma bind_ext {A B} (m : Py A) (k k' : A -> Py B) w :
  (forall a w1, k a w1 = k' a w1) -> bind m k w = bind m k' w.
Proof.
  intros Hk. unfold bind. destruct (m w) as [[a|e] w1]; [ apply Hk | reflexivity ].
Qed.

(** The tests are fluent chains. *)
Lemma tests_are_fluent w :
  test_constraints.testHasUniqueKey w =
    fluent (PyDataFrame test_constraints.df) PyNone
      [Check.call_hasUniqueKey "_1" []; Check.call_hasUniqueKey "_1" ["_2"]]
      (Some [reporters.DummyReporter]) w
  /\ test_constraints.testIsNeverNull w =
       fluent (PyDataFrame test_constraints.df) PyNone
         [Check.call_isNeverNull "_1"; Check.call_isNeverNull "_2"]
         (Some [reporters.DummyReporter]) w
  /\ test_constraints.testHasForeignKey w =
       fluent (PyDataFrame test_constraints.base) PyNone
         [Check.call_hasForeignKey test_constraints.ref ("_1", "_1") [("_2", "_2")]]
         (Some [reporters.DummyReporter]) w.
Proof.
  unfold test_constraints.testHasUniqueKey, test_constraints.testIsNeverNull,
    test_constraints.testHasForeignKey, fluent.
  repeat split; apply bind_ext; intros check0 w0; cbn [chain Check.invoke];
    repeat (rewrite bind_assoc; apply bind_ext; intros ? ?);
    reflexivity.
Qed.


(** X5. The constructor needs a DataFrame: given [None] or a string in its
    place it raises AttributeError for [_sc], whatever the other arguments
    are, before anything is asked of the JVM; the objects that existed are
    as they were. *)
Theorem constructor_needs_a_DataFrame w s displayName jvmCheck :
  (fst (Check.new PyNone displayName jvmCheck w) = Raise (AttributeError "_sc")
   /\ jvm (snd (Check.new PyNone displayName jvmCheck w)) = jvm w
   /\ heap w ⊆ heap (snd (Check.new PyNone displayName jvmCheck w)))
  /\ (fst (Check.new (PyStr s) displayName jvmCheck w) = Raise (AttributeError "_sc")
      /\ jvm (snd (Check.new (PyStr s) displayName jvmCheck w)) = jvm w
      /\ heap w ⊆ heap (snd (Check.new (PyStr s) displayName jvmCheck w))).
Proof.
  assert (Hkeep : forall dataFrame,
            heap w ⊆ heap (snd (Check.new dataFrame displayName jvmCheck w))).
  { intros dataFrame. apply map_subseteq_spec. intros l d Hl.
    apply Stable_new, Hl. }
  assert (Hraise : forall dataFrame,
            attr_sc_jvm dataFrame = raise (AttributeError "_sc") ->
            fst (Check.new dataFrame displayName jvmCheck w) = Raise (AttributeError "_sc")
            /\ jvm (snd (Check.new dataFrame displayName jvmCheck w)) = jvm w).
  { intros dataFrame Hsc. unfold Check.new.
    erewrite bind_Return by reflexivity.
    erewrite bind_Raise.
    2:{ unfold Check.__init__.
        erewrite bind_Return by apply setattr_object.
        rewrite Hsc. reflexivity. }
    split; reflexivity. }
  split; (split; [ | split ]); try apply Hraise; try apply Hkeep; reflexivity.
Qed.

(** ** Objects a client has assigned to *)

Lemma setattr_of_Check w self df displayName j attr v :
  Check.is_Check w self df displayName j ->
  heap (snd (setattr self attr v w)) !! self =
    Some (<[attr := v]> (Check.instance_dict df displayName j)).
Proof.
  intros Hself. unfold setattr. cbn [snd with_heap heap].
  rewrite lookup_alter_eq, Hself. reflexivity.
Qed.

(** X6. The property [id] is [self._id or str(self.jvmCheck.id())]: it
    raises as long as [_id] is not assigned; once a client assigns [_id], it
    returns that value if it is truthy, and otherwise (None, the empty
    string) the id of the engine check, as a string. *)
Theorem id_falls_back_on_engine_id w self df displayName j v :
  Check.is_Check w self df displayName j ->
  Check.getattr self "id" w = (Raise (AttributeError "_id"), w)
  /\ fst ((let* _ := setattr self "_id" v in Check.getattr self "id") w) =
       Return (if truthy v then v else PyStr (Engine.id j)).
Proof.
  intros Hself. split.
  { unfold Check.getattr. rewrite !bool_decide_eq_false_2 by discriminate.
    rewrite bool_decide_eq_true_2 by reflexivity. apply (id_of_Check _ _ _ _ _ Hself). }
  pose proof (setattr_of_Check _ _ _ _ _ "_id" v Hself) as Hset.
  erewrite bind_Return by reflexivity.
  unfold Check.getattr. rewrite !bool_decide_eq_false_2 by discriminate.
  rewrite bool_decide_eq_true_2 by reflexivity.
  unfold Check.id.
  erewrite bind_Return.
  2:{ rewrite (plain_attr_dict _ _ _ _ Hset), lookup_insert_eq. reflexivity. }
  destruct (truthy v); [ reflexivity | ].
  erewrite bind_Return; [ reflexivity | ].
  eapply self_jvmCheck_dict; [ exact Hset | ].
  rewrite lookup_insert_ne by discriminate. reflexivity.
Qed.

Lemma id_falls_back_on_engine_id_witness :
  Check.is_Check test_constraints.built 1%positive test_constraints.df PyNone
    (Check.fresh_jvmCheck test_constraints.setUp test_constraints.df)
  /\ fst ((let* _ := setattr 1%positive "_id" PyNone in Check.getattr 1%positive "id")
            test_constraints.built) =
       Return (PyStr (uuid4_str test_constraints.setUp)).
Proof.
  split; [ reflexivity | ].
  apply (id_falls_back_on_engine_id test_constraints.built 1%positive
           test_constraints.df PyNone
           (Check.fresh_jvmCheck test_constraints.setUp test_constraints.df) PyNone).
  reflexivity.
Defined.

(** X7. The tail of a constraint-adding method,
    [return Check(self.dataFrame, self.displayName, jvmCheck)], works on a
    receiver to which a client has assigned [displayName]: the call then
    returns a new object that holds the receiver's data frame, the assigned
    value as [_displayName] and the engine check with the constraint added;
    the receiver is left as it was and the JVM state is untouched.  The new
    object has no [displayName] of its own, so no constraint-adding call on
    it returns. *)
Theorem add_call_returns_once_displayName_is_assigned
    w self df displayName j v call j' :
  Check.is_Check w self df displayName j ->
  Engine.addConstraint j (Check.constraint_of call) = inr j' ->
  let w0 := snd (setattr self "displayName" v w) in
  exists c' w',
    Check.invoke self call w0 = (Return c', w')
    /\ heap w0 !! c' = None
    /\ Check.is_Check w' c' df v j'
    /\ heap w' !! self = heap w0 !! self
    /\ jvm w' = jvm w
    /\ (forall call2, returned (fst (Check.invoke c' call2 w')) = false).
Proof.
  intros Hself Hadd w0.
  pose proof (setattr_of_Check _ _ _ _ _ "displayName" v Hself) as Hset.
  fold w0 in Hset.
  pose proof (new_constructs w0 df v (Some j')) as Hnew.
  cbn zeta in Hnew. cbn [handle_arg default] in Hnew.
  do 2 eexists. split.
  { erewrite invoke_dict; [ | exact Hset | | ].
    2:{ rewrite lookup_insert_ne by discriminate. reflexivity. }
    2:{ rewrite lookup_insert_ne by discriminate. reflexivity. }
    rewrite Hadd. unfold Check.return_Check, Check.getattr.
    rewrite bool_decide_eq_true_2 by reflexivity.
    rewrite !bool_decide_eq_false_2 by discriminate.
    unfold Check.dataFrame.
    erewrite bind_Return.
    2:{ rewrite (plain_attr_dict _ _ _ _ Hset), lookup_insert_ne by discriminate.
        reflexivity. }
    erewrite bind_Return.
    2:{ rewrite (plain_attr_dict _ _ _ _ Hset), lookup_insert_eq. reflexivity. }
    exact Hnew. }
  assert (Hfresh : heap w0 !! fresh (dom (heap w0)) = None)
    by apply not_elem_of_dom, is_fresh.
  split; [ exact Hfresh | ].
  assert (Hc' : Check.is_Check
                  (with_heap (<[fresh (dom (heap w0)) := Check.instance_dict df v j']>
                                (heap w0)) w0)
                  (fresh (dom (heap w0))) df v j') by apply lookup_insert_eq.
  split; [ exact Hc' | ].
  split.
  { cbn [heap with_heap]. apply lookup_insert_ne. intros Heq.
    rewrite Heq, Hset in Hfresh. discriminate. }
  split; [ reflexivity | ].
  intros call2. rewrite (invoke_of_Check _ _ _ _ _ Hc').
  destruct (Engine.addConstraint j' (Check.constraint_of call2)); reflexivity.
Qed.

Lemma add_call_returns_once_displayName_is_assigned_witness :
  Check.is_Check test_constraints.built 1%positive test_constraints.df PyNone
    (Check.fresh_jvmCheck test_constraints.setUp test_constraints.df)
  /\ exists c' w',
       Check.invoke 1%positive (Check.call_hasUniqueKey "_1" [])
         (snd (setattr 1%positive "displayName" (PyStr "keys")
                 test_constraints.built)) = (Return c', w')
       /\ Check.is_Check w' c' test_constraints.df (PyStr "keys")
            {| Engine.dataSource := _jdf test_constraints.df;
               Engine.displayName := None;
               Engine.cacheMethod := None;
               Engine.constraints := [Engine.UniqueKey ["_1"]];
               Engine.id := uuid4_str test_constraints.setUp |}.
Proof.
  split; [ reflexivity | ].
  destruct (add_call_returns_once_displayName_is_assigned
              test_constraints.built 1%positive test_constraints.df PyNone
              (Check.fresh_jvmCheck test_constraints.setUp test_constraints.df)
              (PyStr "keys") (Check.call_hasUniqueKey "_1" [])
              {| Engine.dataSource := _jdf test_constraints.df;
                 Engine.displayName := None;
                 Engine.cacheMethod := None;
                 Engine.constraints := [Engine.UniqueKey ["_1"]];
                 Engine.id := uuid4_str test_constraints.setUp |}
              eq_refl eq_refl) as (c' & w' & Hcall & _ & Hc' & _).
  exists c', w'. split; assumption.
Defined.

(** X8. What [run] does is decided by the engine handle alone: two Checks
    that wrap the same engine check run to the same result and the same
    reports, whatever data frame and displayName each was built with. *)
Theorem run_depends_on_the_handle_only w c1 c2 df1 df2 displayName1 displayName2 j
    reporters :
  Check.is_Check w c1 df1 displayName1 j ->
  Check.is_Check w c2 df2 displayName2 j ->
  Check.run c1 reporters w = Check.run c2 reporters w
  /\ fst (Check.run c1 reporters w) = Return (Engine.verify (jvm w) j).
Proof.
  intros H1 H2.
  rewrite (run_of_Check _ _ _ _ _ H1), (run_of_Check _ _ _ _ _ H2).
  destruct (_sc_jvm df1), (_sc_jvm df2). split; reflexivity.
Qed.

Lemma run_depends_on_the_handle_only_witness :
  Check.is_Check
    (snd (Check.new (PyDataFrame test_constraints.base) (PyStr "other")
            (PyJavaObject
               (Check.fresh_jvmCheck test_constraints.setUp test_constraints.df))
            test_constraints.built))
    1%positive test_constraints.df PyNone
    (Check.fresh_jvmCheck test_constraints.setUp test_constraints.df)
  /\ Check.is_Check
       (snd (Check.new (PyDataFrame test_constraints.base) (PyStr "other")
               (PyJavaObject
                  (Check.fresh_jvmCheck test_constraints.setUp test_constraints.df))
               test_constraints.built))
       2%positive test_constraints.base (PyStr "other")
       (Check.fresh_jvmCheck test_constraints.setUp test_constraints.df)
  /\ Check.run 1%positive None
       (snd (Check.new (PyDataFrame test_constraints.base) (PyStr "other")
               (PyJavaObject
                  (Check.fresh_jvmCheck test_constraints.setUp test_constraints.df))
               test_constraints.built))
     = Check.run 2%positive None
         (snd (Check.new (PyDataFrame test_constraints.base) (PyStr "other")
                 (PyJavaObject
                    (Check.fresh_jvmCheck test_constraints.setUp test_constraints.df))
                 test_constraints.built)).
Proof.
  split; [ reflexivity | ]. split; [ reflexivity | ].
  apply (run_depends_on_the_handle_only _ 1%positive 2%positive
           test_constraints.df test_constraints.base PyNone (PyStr "other")
           (Check.fresh_jvmCheck test_constraints.setUp test_constraints.df) None).
  - reflexivity.
  - reflexivity.
Defined.
